(** * Package [otel]: export-pipeline factory over the OpenTelemetry SDK

    A shallow embedding of the package: the configuration read from the
    environment ([NewENVConfig]), the resource descriptor ([Config.resource]),
    the two exporters ([ioOutput], [grpcOutput]) with their [ExportPipeline]
    methods and the factory [NewExporter].

    The package is glue code over imported packages.  Each imported package
    is a [Module] that carries a model of the part of its interface the
    package calls: constructors build the value their arguments describe,
    options are functions on a configuration record, and what only the
    running process can decide (what the resource detectors find, whether a
    writer is accepted, whether the collector can be dialled, the defaults
    of the SDK) is a field of the class [SDK]. *)

From Stdlib Require Import ZArith String List Sorting.Sorted.
From Stdlib Require OrdersEx.
From stdpp Require Import base option list gmap strings.

Open Scope string_scope.
Open Scope Z_scope.

(** ** Go's [error] values *)

(** [errors.New] gives an [errorString]; [fmt.Errorf] with the verb [%w]
    gives a [wrapError], which keeps the error it formats. *)
Inductive error : Type :=
| errorString (s : string)
| wrapError (msg : string) (err : error).

Definition Error (e : error) : string :=
  match e with
  | errorString s => s
  | wrapError msg _ => msg
  end.

Definition Unwrap (e : error) : option error :=
  match e with
  | errorString _ => None
  | wrapError _ err => Some err
  end.

Module fmt.
(** [fmt.Errorf(prefix + "%w", err)] *)
Definition Errorf_w (prefix : string) (err : error) : error :=
  wrapError (prefix ++ Error err) err.
End fmt.

(** ** [time], [context], [io] *)

Module time.
(** [time.Duration] counts nanoseconds in an [int64]. *)
Definition Duration := Z.
Definition Nanosecond : Duration := 1.
Definition Microsecond : Duration := 1000 * Nanosecond.
Definition Millisecond : Duration := 1000 * Microsecond.
Definition Second : Duration := 1000 * Millisecond.
End time.

Module context.
Inductive Context : Type :=
| Background
| TODO
| WithTimeout (parent : Context) (timeout : time.Duration).
End context.

Module io.
(** The writers the package is handed: the standard output and byte
    buffers, each buffer named by its address. *)
Inductive Writer : Type :=
| os_Stdout
| bytes_Buffer (addr : nat).
End io.

(** ** [go.opentelemetry.io/otel/attribute] *)

Module attribute.
Inductive Value : Type :=
| INVALID
| BOOL (b : bool)
| INT64 (i : Z)
| STRING (s : string).

Record KeyValue : Type := mkKeyValue { Key : string; Val : Value }.

(** [Key.String]: [k.String(v)] *)
Definition Key_String (k : string) (v : string) : KeyValue :=
  {| Key := k; Val := STRING v |}.

(** [Value.AsString] *)
Definition AsString (v : Value) : string :=
  match v with
  | STRING s => s
  | _ => ""
  end.

Definition Defined (k : string) : bool := negb (String.eqb k "").

Definition Valid (kv : KeyValue) : bool :=
  Defined (Key kv) &&
  match Val kv with INVALID => false | _ => true end.

(** Keys are ordered as Go orders strings, byte by byte. *)
Definition compare_keys : string -> string -> comparison :=
  OrdersEx.String_as_OT.compare.

(** One step of building a [Set]: the entry takes its place by key, and
    replaces an entry of the same key. *)
Fixpoint upsert (kv : KeyValue) (s : list KeyValue) : list KeyValue :=
  match s with
  | [] => [kv]
  | x :: s' =>
      match compare_keys (Key kv) (Key x) with
      | Lt => kv :: s
      | Eq => kv :: s'
      | Gt => x :: upsert kv s'
      end
  end.

(** [attribute.NewSet]: the valid entries, sorted by key, the last value
    given for a key winning. *)
Definition NewSet (kvs : list KeyValue) : list KeyValue :=
  fold_left (fun s kv => if Valid kv then upsert kv s else s) kvs [].

(** [Set.Value] *)
Fixpoint Value_of (k : string) (s : list KeyValue) : option Value :=
  match s with
  | [] => None
  | x :: s' => if String.eqb (Key x) k then Some (Val x) else Value_of k s'
  end.
End attribute.

(** ** [go.opentelemetry.io/otel/sdk/resource] *)

Module resource.
Import attribute.

Record Resource : Type := mkResource {
  attrs : list KeyValue;
  schemaURL : string
}.

Definition Empty : Resource := {| attrs := []; schemaURL := "" |}.

Definition errMergeConflictSchemaURL : error :=
  errorString "cannot merge resource due to conflicting Schema URL".

(** [Resource.Attributes]; the receiver may be [nil]. *)
Definition Attributes (r : option Resource) : list KeyValue :=
  match r with
  | Some r => attrs r
  | None => []
  end.

(** What the detectors of the running process report. *)
Class Detectors :=
  detect : context.Context -> option Resource * option error.

(** [resource.New(ctx)] *)
Definition New `{Detectors} (ctx : context.Context)
  : option Resource * option error :=
  detect ctx.

Definition NewWithAttributes (schemaURL : string) (kvs : list KeyValue)
  : Resource :=
  {| attrs := NewSet kvs; schemaURL := schemaURL |}.

(** [resource.Merge(a, b)]: the entries of [b] overwrite those of [a];
    two different non-empty schema URLs are a conflict. *)
Definition Merge (a b : option Resource) : option Resource * option error :=
  match a, b with
  | None, None => (Some Empty, None)
  | None, Some _ => (b, None)
  | Some _, None => (a, None)
  | Some ra, Some rb =>
      if String.eqb (schemaURL ra) "" then
        (Some (NewWithAttributes (schemaURL rb) (attrs ra ++ attrs rb)), None)
      else if String.eqb (schemaURL rb) "" then
        (Some (NewWithAttributes (schemaURL ra) (attrs ra ++ attrs rb)), None)
      else if String.eqb (schemaURL ra) (schemaURL rb) then
        (Some (NewWithAttributes (schemaURL ra) (attrs ra ++ attrs rb)), None)
      else
        (Some Empty, Some errMergeConflictSchemaURL)
  end.
End resource.

(** ** [go.opentelemetry.io/otel/semconv/v1.4.0] *)

Module semconv.
Definition SchemaURL : string := "https://opentelemetry.io/schemas/1.4.0".
Definition ServiceNameKey : string := "service.name".
Definition ServiceVersionKey : string := "service.version".
Definition ServiceInstanceIDKey : string := "service.instance.id".
End semconv.

(** ** [google.golang.org/grpc] and its [credentials] *)

Module credentials.
(** A pool of root certificates, each named by its subject. *)
Definition CertPool := list string.

Record TransportCredentials : Type := mkTLS {
  RootCAs : option CertPool;
  ServerName : string
}.

(** [credentials.NewClientTLSFromCert(cp, serverNameOverride)]; without a
    pool the roots are those the host trusts. *)
Definition NewClientTLSFromCert (cp : option CertPool)
    (serverNameOverride : string) : TransportCredentials :=
  {| RootCAs := cp; ServerName := serverNameOverride |}.
End credentials.

Module grpc.
Inductive DialOption : Type :=
| WithBlock
| WithUserAgent (s : string).
End grpc.

(** ** [go.opentelemetry.io/otel/exporters/otlp/otlptrace/otlptracegrpc] *)

Module otlptracegrpc.
Inductive Compression : Type :=
| NoCompression
| GzipCompression.

(** What a client is configured with. *)
Record Config : Type := mkConfig {
  Endpoint : string;
  GRPCCredentials : option credentials.TransportCredentials;
  ReconnectionPeriod : time.Duration;
  DialOptions : list grpc.DialOption;
  Timeout : time.Duration;
  Headers : gmap string string;
  Compressor : Compression
}.

Definition Option := Config -> Config.

Definition WithEndpoint (endpoint : string) : Option := fun cfg =>
  {| Endpoint := endpoint;
     GRPCCredentials := GRPCCredentials cfg;
     ReconnectionPeriod := ReconnectionPeriod cfg;
     DialOptions := DialOptions cfg;
     Timeout := Timeout cfg;
     Headers := Headers cfg;
     Compressor := Compressor cfg |}.

Definition WithTLSCredentials (creds : credentials.TransportCredentials)
  : Option := fun cfg =>
  {| Endpoint := Endpoint cfg;
     GRPCCredentials := Some creds;
     ReconnectionPeriod := ReconnectionPeriod cfg;
     DialOptions := DialOptions cfg;
     Timeout := Timeout cfg;
     Headers := Headers cfg;
     Compressor := Compressor cfg |}.

Definition WithReconnectionPeriod (rp : time.Duration) : Option := fun cfg =>
  {| Endpoint := Endpoint cfg;
     GRPCCredentials := GRPCCredentials cfg;
     ReconnectionPeriod := rp;
     DialOptions := DialOptions cfg;
     Timeout := Timeout cfg;
     Headers := Headers cfg;
     Compressor := Compressor cfg |}.

Definition WithDialOption (opts : list grpc.DialOption) : Option := fun cfg =>
  {| Endpoint := Endpoint cfg;
     GRPCCredentials := GRPCCredentials cfg;
     ReconnectionPeriod := ReconnectionPeriod cfg;
     DialOptions := opts;
     Timeout := Timeout cfg;
     Headers := Headers cfg;
     Compressor := Compressor cfg |}.

Definition WithTimeout (duration : time.Duration) : Option := fun cfg =>
  {| Endpoint := Endpoint cfg;
     GRPCCredentials := GRPCCredentials cfg;
     ReconnectionPeriod := ReconnectionPeriod cfg;
     DialOptions := DialOptions cfg;
     Timeout := duration;
     Headers := Headers cfg;
     Compressor := Compressor cfg |}.

Definition WithHeaders (headers : gmap string string) : Option := fun cfg =>
  {| Endpoint := Endpoint cfg;
     GRPCCredentials := GRPCCredentials cfg;
     ReconnectionPeriod := ReconnectionPeriod cfg;
     DialOptions := DialOptions cfg;
     Timeout := Timeout cfg;
     Headers := headers;
     Compressor := Compressor cfg |}.

(** [WithCompressor] knows the compressor ["gzip"] and no other. *)
Definition WithCompressor (compressor : string) : Option := fun cfg =>
  {| Endpoint := Endpoint cfg;
     GRPCCredentials := GRPCCredentials cfg;
     ReconnectionPeriod := ReconnectionPeriod cfg;
     DialOptions := DialOptions cfg;
     Timeout := Timeout cfg;
     Headers := Headers cfg;
     Compressor := if String.eqb compressor "gzip"
                   then GzipCompression else NoCompression |}.

(** A client is the configuration it was built with. *)
Record Client : Type := mkClient { cfg : Config }.

(** The configuration of a client built without options. *)
Class Defaults := defaults : Config.

(** [otlptracegrpc.NewClient(opts...)]: the options apply to the
    defaults in the order given. *)
Definition NewClient `{Defaults} (opts : list Option) : Client :=
  {| cfg := fold_left (fun c (o : Option) => o c) opts defaults |}.
End otlptracegrpc.

(** ** [go.opentelemetry.io/otel/exporters/stdout/stdouttrace] *)

Module stdouttrace.
Record config : Type := mkconfig {
  Writer : option io.Writer;
  PrettyPrint : bool;
  Timestamps : bool
}.

Definition Option := config -> config.

Definition WithWriter (w : option io.Writer) : Option := fun cfg =>
  {| Writer := w;
     PrettyPrint := PrettyPrint cfg;
     Timestamps := Timestamps cfg |}.

Record Exporter : Type := mkExporter { cfg : config }.

(** The configuration without options, and the error, if any, with which
    a configuration is turned down. *)
Class Runtime := {
  defaults : config;
  check : config -> option error
}.

Definition newConfig `{Runtime} (options : list Option)
  : config * option error :=
  let cfg := fold_left (fun c (o : Option) => o c) options defaults in
  (cfg, check cfg).

(** [stdouttrace.New(options...)] *)
Definition New `{Runtime} (options : list Option)
  : option Exporter * option error :=
  let '(cfg, err) := newConfig options in
  match err with
  | Some err => (None, Some err)
  | None => (Some {| cfg := cfg |}, None)
  end.
End stdouttrace.

(** ** [go.opentelemetry.io/otel/exporters/otlp/otlptrace] *)

Module otlptrace.
Record Exporter : Type := mkExporter { client : otlptracegrpc.Client }.

(** The error, if any, with which the client fails to start: the
    collector cannot be reached before the context or the timeout of the
    client ends. *)
Class Dialer :=
  Start : context.Context -> otlptracegrpc.Client -> option error.

Definition NewUnstarted (client : otlptracegrpc.Client) : Exporter :=
  {| client := client |}.

(** [otlptrace.New(ctx, client)] *)
Definition New `{Dialer} (ctx : context.Context)
    (client : otlptracegrpc.Client) : option Exporter * option error :=
  let exp := NewUnstarted client in
  match Start ctx client with
  | Some err => (None, Some err)
  | None => (Some exp, None)
  end.
End otlptrace.

(** ** [go.opentelemetry.io/otel/sdk/trace] *)

Module trace.
Inductive SpanExporter : Type :=
| StdoutExporter (e : stdouttrace.Exporter)
| OTLPExporter (e : otlptrace.Exporter).

Record BatchSpanProcessorOptions : Type := mkBSPOptions {
  MaxQueueSize : Z;
  BatchTimeout : time.Duration;
  ExportTimeout : time.Duration;
  MaxExportBatchSize : Z;
  BlockOnQueueFull : bool
}.

Definition BatchSpanProcessorOption :=
  BatchSpanProcessorOptions -> BatchSpanProcessorOptions.

Definition WithMaxQueueSize (size : Z) : BatchSpanProcessorOption := fun o =>
  {| MaxQueueSize := size;
     BatchTimeout := BatchTimeout o;
     ExportTimeout := ExportTimeout o;
     MaxExportBatchSize := MaxExportBatchSize o;
     BlockOnQueueFull := BlockOnQueueFull o |}.

Definition WithMaxExportBatchSize (size : Z) : BatchSpanProcessorOption :=
  fun o =>
  {| MaxQueueSize := MaxQueueSize o;
     BatchTimeout := BatchTimeout o;
     ExportTimeout := ExportTimeout o;
     MaxExportBatchSize := size;
     BlockOnQueueFull := BlockOnQueueFull o |}.

Definition WithBatchTimeout (delay : time.Duration)
  : BatchSpanProcessorOption := fun o =>
  {| MaxQueueSize := MaxQueueSize o;
     BatchTimeout := delay;
     ExportTimeout := ExportTimeout o;
     MaxExportBatchSize := MaxExportBatchSize o;
     BlockOnQueueFull := BlockOnQueueFull o |}.

Definition WithExportTimeout (timeout : time.Duration)
  : BatchSpanProcessorOption := fun o =>
  {| MaxQueueSize := MaxQueueSize o;
     BatchTimeout := BatchTimeout o;
     ExportTimeout := timeout;
     MaxExportBatchSize := MaxExportBatchSize o;
     BlockOnQueueFull := BlockOnQueueFull o |}.

(** A batch span processor: the exporter it feeds (a pointer, [nil]
    allowed) and its options. *)
Record SpanProcessor : Type := mkBSP {
  e : option SpanExporter;
  o : BatchSpanProcessorOptions
}.

Inductive Sampler : Type :=
| alwaysOnSampler
| alwaysOffSampler
| parentBased (root : Sampler).

Definition AlwaysSample : Sampler := alwaysOnSampler.
Definition NeverSample : Sampler := alwaysOffSampler.
Definition ParentBased (root : Sampler) : Sampler := parentBased root.

(** A tracer provider is what its options made of it: its span
    processors in the order of registration, its sampler, and the resource
    handed to [WithResource]. *)
Record TracerProvider : Type := mkTracerProvider {
  spanProcessors : list SpanProcessor;
  sampler : Sampler;
  resource : option resource.Resource
}.

(** The provider and the batching options without options. *)
Class Defaults := {
  batchDefaults : BatchSpanProcessorOptions;
  providerDefaults : TracerProvider
}.

Definition NewBatchSpanProcessor `{Defaults} (exporter : option SpanExporter)
    (options : list BatchSpanProcessorOption) : SpanProcessor :=
  {| e := exporter;
     o := fold_left (fun o (opt : BatchSpanProcessorOption) => opt o)
            options batchDefaults |}.

Definition TracerProviderOption := TracerProvider -> TracerProvider.

Definition WithSpanProcessor (sp : SpanProcessor) : TracerProviderOption :=
  fun cfg =>
  {| spanProcessors := spanProcessors cfg ++ [sp];
     sampler := sampler cfg;
     resource := resource cfg |}.

Definition WithBatcher `{Defaults} (e : option SpanExporter)
    (opts : list BatchSpanProcessorOption) : TracerProviderOption :=
  WithSpanProcessor (NewBatchSpanProcessor e opts).

Definition WithSampler (s : Sampler) : TracerProviderOption := fun cfg =>
  {| spanProcessors := spanProcessors cfg;
     sampler := s;
     resource := resource cfg |}.

Definition WithResource (r : option resource.Resource)
  : TracerProviderOption := fun cfg =>
  {| spanProcessors := spanProcessors cfg;
     sampler := sampler cfg;
     resource := r |}.

(** Providers live on the heap; a [*TracerProvider] is an index into it. *)
Definition Ref := nat.
Definition Heap := list TracerProvider.

(** [trace.NewTracerProvider(opts...)] allocates the provider the options
    describe and returns the pointer to it. *)
Definition NewTracerProvider `{Defaults} (opts : list TracerProviderOption)
    (h : Heap) : Ref * Heap :=
  let tp := fold_left (fun c (o : TracerProviderOption) => o c) opts
              providerDefaults in
  (List.length h, (h ++ [tp])%list).
End trace.

(** ** The process: heap and global tracer provider *)

Record World : Type := mkWorld {
  heap : trace.Heap;
  globalTracerProvider : option trace.Ref
}.

(** Computations on the process state. *)
Definition M (A : Type) : Type := World -> A * World.

Definition ret {A : Type} (a : A) : M A := fun w => (a, w).

Definition bind {A B : Type} (m : M A) (f : A -> M B) : M B :=
  fun w => let '(a, w') := m w in f a w'.

Notation "x <- m ;; k" := (bind m (fun x => k))
  (at level 100, m at next level, right associativity).

Definition on_heap {A : Type} (f : trace.Heap -> A * trace.Heap) : M A :=
  fun w =>
    let '(a, h) := f (heap w) in
    (a, {| heap := h; globalTracerProvider := globalTracerProvider w |}).

(** ** [go.opentelemetry.io/otel] *)

Module otel.
(** [otel.SetTracerProvider(tp)] *)
Definition SetTracerProvider (tp : trace.Ref) : M unit :=
  fun w => (tt, {| heap := heap w; globalTracerProvider := Some tp |}).

(** [otel.GetTracerProvider()]; [None] while no provider was set. *)
Definition GetTracerProvider : M (option trace.Ref) :=
  fun w => (globalTracerProvider w, w).
End otel.

(** ** [os]: the environment of the process *)

Module os.
(** [os.Getenv(key)]: the value of the variable, empty when unset. *)
Definition Getenv (env : gmap string string) (key : string) : string :=
  default "" (env !! key).

Definition EINVAL : error := errorString "invalid argument".

(** The byte [=]. *)
Definition equals_sign : Ascii.ascii := Ascii.ascii_of_nat 61.

Fixpoint has_byte (b : Ascii.ascii) (s : string) : bool :=
  match s with
  | EmptyString => false
  | String a s' => Ascii.eqb a b || has_byte b s'
  end.

(** [os.Setenv(key, value)]: an empty key, a key with [=] or a NUL byte and
    a value with a NUL byte are turned down with [EINVAL], wrapped as a
    [SyscallError]; otherwise the variable is set. *)
Definition Setenv (env : gmap string string) (key value : string)
  : gmap string string * option error :=
  if String.eqb key ""
     || has_byte equals_sign key || has_byte Ascii.zero key
     || has_byte Ascii.zero value
  then (env, Some (wrapError "setenv: invalid argument" EINVAL))
  else (<[key := value]> env, None).

(** [os.Unsetenv(key)] *)
Definition Unsetenv (env : gmap string string) (key : string)
  : gmap string string * option error :=
  (delete key env, None).
End os.

(** The SDK the package is linked with and the process it runs in. *)
Class SDK := {
  sdk_detectors :: resource.Detectors;
  sdk_stdout :: stdouttrace.Runtime;
  sdk_otlp :: otlptracegrpc.Defaults;
  sdk_dialer :: otlptrace.Dialer;
  sdk_trace :: trace.Defaults
}.

(** ** Package [otel] *)

(** [OutputType] is an [int]; the two supported outputs are [iota] 0 and 1. *)
Definition OutputType := Z.
Definition IO : OutputType := 0.
Definition GRPC : OutputType := 1.

(** [Config]; the [Writer] is an interface value, [None] for [nil]. *)
Record Config : Type := mkConfig {
  ServiceName : string;
  ServiceVersion : string;
  ServiceInstanceID : string;
  Writer : option io.Writer;
  APIKey : string;
  URL : string
}.

(** The exporters embed the pointer to the [Config] they were built from;
    no function of the package writes to it, so they carry its value. *)
Record ioOutput : Type := mk_ioOutput { io_Config : Config }.
Record grpcOutput : Type := mk_grpcOutput { grpc_Config : Config }.

(** The values of the interface [Exporter]; the [nil] interface is [None]
    of [option Exporter]. *)
Inductive Exporter : Type :=
| Exporter_io (c : ioOutput)
| Exporter_grpc (g : grpcOutput).

(** [NewENVConfig], in the environment [env]. *)
Definition NewENVConfig (env : gmap string string) : Config :=
  {| ServiceName := os.Getenv env "OTEL_SERVICE_NAME";
     ServiceVersion := os.Getenv env "OTEL_SERVICE_VERSION";
     ServiceInstanceID := os.Getenv env "OTEL_SERVICE_ID";
     Writer := None;
     APIKey := os.Getenv env "OTEL_GRPC_API_KEY";
     URL := os.Getenv env "OTEL_GRPC_URL" |}.

(** [NewExporter] *)
Definition NewExporter (outputType : OutputType) (c : Config)
  : option Exporter :=
  if outputType =? IO then Some (Exporter_io {| io_Config := c |})
  else if outputType =? GRPC then Some (Exporter_grpc {| grpc_Config := c |})
  else None.

(** [setEnv] and [unsetEnv], the helpers of the tests; both drop the errors
    of the calls they make. *)
Definition setEnv (env : gmap string string) : gmap string string :=
  let '(env, _) := os.Setenv env "OTEL_SERVICE_NAME" "sampleServiceName" in
  let '(env, _) := os.Setenv env "OTEL_SERVICE_VERSION" "v1.0.0.0" in
  let '(env, _) := os.Setenv env "OTEL_SERVICE_ID" "sampleServiceID" in
  let '(env, _) := os.Setenv env "OTEL_GRPC_API_KEY" "sampleApiKey" in
  let '(env, _) := os.Setenv env "OTEL_GRPC_URL" "otlp.nr-data.net:4317" in
  env.

Definition unsetEnv (env : gmap string string) : gmap string string :=
  let '(env, _) := os.Unsetenv env "OTEL_SERVICE_NAME" in
  let '(env, _) := os.Unsetenv env "OTEL_SERVICE_VERSION" in
  let '(env, _) := os.Unsetenv env "OTEL_SERVICE_ID" in
  let '(env, _) := os.Unsetenv env "OTEL_GRPC_API_KEY" in
  let '(env, _) := os.Unsetenv env "OTEL_GRPC_URL" in
  env.

Section Pipelines.
Context `{SDK}.

(** [Config.resource] *)
Definition Config_resource (c : Config) (ctx : context.Context)
  : option resource.Resource * option error :=
  let '(defaultResource, _) := resource.New ctx in
  let '(resource, err) :=
    resource.Merge
      defaultResource
      (Some (resource.NewWithAttributes
               semconv.SchemaURL
               [ attribute.Key_String semconv.ServiceNameKey (ServiceName c);
                 attribute.Key_String semconv.ServiceVersionKey
                   (ServiceVersion c);
                 attribute.Key_String semconv.ServiceInstanceIDKey
                   (ServiceInstanceID c) ])) in
  match err with
  | Some err => (None, Some (fmt.Errorf_w "could not create resource: " err))
  | None => (resource, None)
  end.

(** [ioOutput.ExportPipeline] *)
Definition ioOutput_ExportPipeline (c : ioOutput) (ctx : context.Context)
  : M (option trace.Ref * option error) :=
  let '(exp, err) :=
    stdouttrace.New [ stdouttrace.WithWriter (Writer (io_Config c)) ] in
  match err with
  | Some err =>
      ret (None, Some (fmt.Errorf_w "could not create exporter: " err))
  | None =>
      let '(resource, _) := Config_resource (io_Config c) ctx in
      tracerProvider <- on_heap (trace.NewTracerProvider
        [ trace.WithBatcher (trace.StdoutExporter <$> exp) [];
          trace.WithResource resource ]) ;;
      _ <- otel.SetTracerProvider tracerProvider ;;
      ret (Some tracerProvider, None)
  end.

(** The local variables [headers], [creds] and [clientOpts] of
    [grpcOutput.ExportPipeline]. *)
Definition headers (g : grpcOutput) : gmap string string :=
  {[ "api-key" := APIKey (grpc_Config g) ]}.

Definition creds : credentials.TransportCredentials :=
  credentials.NewClientTLSFromCert None "".

Definition clientOpts (g : grpcOutput) : list otlptracegrpc.Option :=
  [ otlptracegrpc.WithEndpoint (URL (grpc_Config g));
    otlptracegrpc.WithTLSCredentials creds;
    otlptracegrpc.WithReconnectionPeriod (2 * time.Second);
    otlptracegrpc.WithDialOption [ grpc.WithBlock ];
    otlptracegrpc.WithTimeout (30 * time.Second);
    otlptracegrpc.WithHeaders (headers g);
    otlptracegrpc.WithCompressor "gzip" ].

(** [grpcOutput.ExportPipeline] *)
Definition grpcOutput_ExportPipeline (g : grpcOutput) (ctx : context.Context)
  : M (option trace.Ref * option error) :=
  let '(otlpExporter, err) :=
    otlptrace.New ctx (otlptracegrpc.NewClient (clientOpts g)) in
  match err with
  | Some err =>
      ret (None, Some (fmt.Errorf_w "creating OTLP trace exporter: " err))
  | None =>
      let '(resource, _) := Config_resource (grpc_Config g) ctx in
      tracerProvider <- on_heap (trace.NewTracerProvider
        [ trace.WithBatcher (trace.OTLPExporter <$> otlpExporter)
            [ trace.WithBatchTimeout (5 * time.Second);
              trace.WithExportTimeout (5 * time.Second);
              trace.WithMaxQueueSize 10000;
              trace.WithMaxExportBatchSize 100000 ];
          trace.WithSampler trace.AlwaysSample;
          trace.WithResource resource ]) ;;
      _ <- otel.SetTracerProvider tracerProvider ;;
      ret (Some tracerProvider, None)
  end.

(** The method [ExportPipeline] of the interface. *)
Definition ExportPipeline (e : Exporter) (ctx : context.Context)
  : M (option trace.Ref * option error) :=
  match e with
  | Exporter_io c => ioOutput_ExportPipeline c ctx
  | Exporter_grpc g => grpcOutput_ExportPipeline g ctx
  end.
End Pipelines.

(** ** Vocabulary of the statements *)

(** Entries of an attribute set compare by key. *)
Definition key_lt (x y : attribute.KeyValue) : Prop :=
  attribute.compare_keys (attribute.Key x) (attribute.Key y) = Lt.

(** The three keys under which the identity of the service is recorded. *)
Definition is_identity_key (k : string) : bool :=
  String.eqb semconv.ServiceInstanceIDKey k
  || String.eqb semconv.ServiceNameKey k
  || String.eqb semconv.ServiceVersionKey k.

Definition is_identity (kv : attribute.KeyValue) : bool :=
  is_identity_key (attribute.Key kv).

(** The identity attributes of a configuration, in the order of their keys:
    instance id, name, version. *)
Definition identity_attributes (c : Config) : list attribute.KeyValue :=
  [ attribute.Key_String semconv.ServiceInstanceIDKey (ServiceInstanceID c);
    attribute.Key_String semconv.ServiceNameKey (ServiceName c);
    attribute.Key_String semconv.ServiceVersionKey (ServiceVersion c) ].

(** The identity fields of a configuration, each with the key it is
    recorded under. *)
Definition identity_fields (c : Config) : list (string * string) :=
  [ (semconv.ServiceNameKey, ServiceName c);
    (semconv.ServiceVersionKey, ServiceVersion c);
    (semconv.ServiceInstanceIDKey, ServiceInstanceID c) ].

(** The variables of the environment the package knows, each with the field
    of the configuration it fills. *)
Definition env_fields : list (string * (Config -> string)) :=
  [ ("OTEL_SERVICE_NAME", ServiceName);
    ("OTEL_SERVICE_VERSION", ServiceVersion);
    ("OTEL_SERVICE_ID", ServiceInstanceID);
    ("OTEL_GRPC_API_KEY", APIKey);
    ("OTEL_GRPC_URL", URL) ].

(** The names of these variables. *)
Definition env_names : list string := map fst env_fields.

(** An attribute set as the SDK keeps it: valid entries, sorted by key. *)
Definition is_set (s : list attribute.KeyValue) : Prop :=
  StronglySorted key_lt s /\
  Forall (fun kv => attribute.Valid kv = true) s.

(** The configuration an exporter embeds. *)
Definition Exporter_Config (e : Exporter) : Config :=
  match e with
  | Exporter_io c => io_Config c
  | Exporter_grpc g => grpc_Config g
  end.

(** The error, if any, with which the export adapter of an exporter fails to
    be built: that of [stdouttrace.New] for the local stream, that of
    [otlptrace.New] for the remote collector. *)
Definition construction_error `{SDK} (e : Exporter) (ctx : context.Context)
  : option error :=
  match e with
  | Exporter_io c =>
      (stdouttrace.New [ stdouttrace.WithWriter (Writer (io_Config c)) ]).2
  | Exporter_grpc g =>
      (otlptrace.New ctx (otlptracegrpc.NewClient (clientOpts g))).2
  end.

(** A configuration with the fields of the remote output left empty, and
    one with the writer of the local output left [nil]. *)
Definition without_remote (c : Config) : Config :=
  {| ServiceName := ServiceName c;
     ServiceVersion := ServiceVersion c;
     ServiceInstanceID := ServiceInstanceID c;
     Writer := Writer c;
     APIKey := "";
     URL := "" |}.

Definition without_Writer (c : Config) : Config :=
  {| ServiceName := ServiceName c;
     ServiceVersion := ServiceVersion c;
     ServiceInstanceID := ServiceInstanceID c;
     Writer := None;
     APIKey := APIKey c;
     URL := URL c |}.

(** ** Sample processes

    SDKs and environments at which the statements below are exercised. *)

Module Sample.
(** An SDK with the defaults of the library, in a process described by
    what its detectors report, which writers are turned down and whether
    the collector answers. *)
Definition sdk_of (d : resource.Detectors)
    (chk : stdouttrace.config -> option error) (dial : otlptrace.Dialer)
  : SDK :=
  {| sdk_detectors := d;
     sdk_stdout :=
       {| stdouttrace.defaults :=
            {| stdouttrace.Writer := Some io.os_Stdout;
               stdouttrace.PrettyPrint := false;
               stdouttrace.Timestamps := true |};
          stdouttrace.check := chk |};
     sdk_otlp :=
       {| otlptracegrpc.Endpoint := "localhost:4317";
          otlptracegrpc.GRPCCredentials := None;
          otlptracegrpc.ReconnectionPeriod := 0;
          otlptracegrpc.DialOptions := [];
          otlptracegrpc.Timeout := 10 * time.Second;
          otlptracegrpc.Headers := ∅;
          otlptracegrpc.Compressor := otlptracegrpc.NoCompression |};
     sdk_dialer := dial;
     sdk_trace :=
       {| trace.batchDefaults :=
            {| trace.MaxQueueSize := 2048;
               trace.BatchTimeout := 5000 * time.Millisecond;
               trace.ExportTimeout := 30000 * time.Millisecond;
               trace.MaxExportBatchSize := 512;
               trace.BlockOnQueueFull := false |};
          trace.providerDefaults :=
            {| trace.spanProcessors := [];
               trace.sampler := trace.ParentBased trace.AlwaysSample;
               trace.resource := None |} |} |}.

(** No detector is configured, every writer is taken, the collector
    answers. *)
Definition plain : SDK :=
  sdk_of (fun _ => (Some resource.Empty, None))
         (fun _ => None)
         (fun _ _ => None).

(** The detectors report the host and the SDK. *)
Definition detected : SDK :=
  sdk_of (fun _ =>
            (Some {| resource.attrs :=
                       [ attribute.Key_String "host.name" "build-7";
                         attribute.Key_String "service.name" "unknown_service";
                         attribute.Key_String "service.namespace" "shop";
                         attribute.Key_String "telemetry.sdk.language" "go" ];
                     resource.schemaURL := "" |}, None))
         (fun _ => None)
         (fun _ _ => None).

(** The detectors report a resource under another schema. *)
Definition other_schema : SDK :=
  sdk_of (fun _ =>
            (Some {| resource.attrs :=
                       [ attribute.Key_String "host.name" "build-7" ];
                     resource.schemaURL :=
                       "https://opentelemetry.io/schemas/1.7.0" |}, None))
         (fun _ => None)
         (fun _ _ => None).

(** The collector does not answer, and a missing writer is turned down. *)
Definition failing : SDK :=
  sdk_of (fun _ => (Some resource.Empty, None))
         (fun cfg => match stdouttrace.Writer cfg with
                     | None => Some (errorString "nil writer")
                     | Some _ => None
                     end)
         (fun _ _ => Some (errorString "context deadline exceeded")).

(** The environment the tests of the package set up. *)
Definition env : gmap string string :=
  <["OTEL_SERVICE_NAME" := "sampleServiceName"]>
  (<["OTEL_SERVICE_VERSION" := "v1.0.0.0"]>
  (<["OTEL_SERVICE_ID" := "sampleServiceID"]>
  (<["OTEL_GRPC_API_KEY" := "sampleApiKey"]>
  (<["OTEL_GRPC_URL" := "otlp.nr-data.net:4317"]> ∅)))).

(** The configuration of the tests: read from [env], then given the
    standard output as writer. *)
Definition config : Config :=
  let c := NewENVConfig env in
  {| ServiceName := ServiceName c;
     ServiceVersion := ServiceVersion c;
     ServiceInstanceID := ServiceInstanceID c;
     Writer := Some io.os_Stdout;
     APIKey := APIKey c;
     URL := URL c |}.

(** A process that built nothing yet. *)
Definition fresh : World := {| heap := []; globalTracerProvider := None |}.

(** A provider without span processors, as a process may have installed
    before it calls the package. *)
Definition idle : trace.TracerProvider :=
  {| trace.spanProcessors := [];
     trace.sampler := trace.ParentBased trace.AlwaysSample;
     trace.resource := None |}.
End Sample.

(** ** Attribute sets *)

Section AttributeSets.
Import attribute.

Lemma compare_keys_Eq (a b : string) : compare_keys a b = Eq <-> a = b.
Proof.
  unfold compare_keys.
  destruct (OrdersEx.String_as_OT.compare_spec a b) as [E | L | L];
    split; intros E'; try congruence; subst;
    exfalso; exact (StrictOrder_Irreflexive _ L).
Qed.

Lemma compare_keys_Gt (a b : string) :
  compare_keys a b = Gt -> compare_keys b a = Lt.
Proof.
  unfold compare_keys.
  destruct (OrdersEx.String_as_OT.compare_spec a b) as [E | L | L];
    intros E'; try congruence; exact L.
Qed.

Lemma compare_keys_Lt_trans (a b c : string) :
  compare_keys a b = Lt -> compare_keys b c = Lt -> compare_keys a c = Lt.
Proof.
  exact (StrictOrder_Transitive (R := OrdersEx.String_as_OT.lt) a b c).
Qed.

Lemma compare_keys_Lt_neq (a b : string) :
  compare_keys a b = Lt -> String.eqb b a = false.
Proof.
  intros L. apply String.eqb_neq. intros ->.
  assert (E : compare_keys a a = Eq) by (apply compare_keys_Eq; reflexivity).
  congruence.
Qed.

Lemma Value_of_upsert (k : string) (kv : KeyValue) (s : list KeyValue) :
  Value_of k (upsert kv s) =
  if String.eqb (Key kv) k then Some (Val kv) else Value_of k s.
Proof.
  induction s as [| x s IH]; simpl; [reflexivity |].
  destruct (compare_keys (Key kv) (Key x)) eqn:C; simpl.
  - apply compare_keys_Eq in C. rewrite <- C.
    destruct (String.eqb (Key kv) k); reflexivity.
  - reflexivity.
  - rewrite IH.
    destruct (String.eqb_spec (Key x) k) as [<- | N]; [| reflexivity].
    apply compare_keys_Gt, compare_keys_Lt_neq in C.
    rewrite C. reflexivity.
Qed.

Lemma Forall_upsert (P : KeyValue -> Prop) (kv : KeyValue)
    (s : list KeyValue) :
  P kv -> Forall P s -> Forall P (upsert kv s).
Proof.
  intros Hkv Hs. induction Hs as [| x s Hx Hs IH]; simpl.
  - constructor; [exact Hkv | constructor].
  - destruct (compare_keys (Key kv) (Key x)); repeat constructor; auto.
Qed.

Lemma upsert_sorted (kv : KeyValue) (s : list KeyValue) :
  StronglySorted key_lt s -> StronglySorted key_lt (upsert kv s).
Proof.
  induction 1 as [| x s Hs IH Hx]; simpl.
  - repeat constructor.
  - destruct (compare_keys (Key kv) (Key x)) eqn:C.
    + apply compare_keys_Eq in C.
      constructor; [exact Hs |].
      eapply List.Forall_impl; [| exact Hx].
      intros y Hy. unfold key_lt in *. rewrite C. exact Hy.
    + constructor; [constructor; assumption |].
      constructor; [exact C |].
      eapply List.Forall_impl; [| exact Hx].
      intros y Hy. exact (compare_keys_Lt_trans _ _ _ C Hy).
    + constructor; [exact IH |].
      apply Forall_upsert; [| exact Hx].
      exact (compare_keys_Gt _ _ C).
Qed.

Lemma NewSet_app (l1 l2 : list KeyValue) :
  NewSet (l1 ++ l2) =
  fold_left (fun s kv => if Valid kv then upsert kv s else s) l2 (NewSet l1).
Proof. unfold NewSet. apply fold_left_app. Qed.

Lemma NewSet_sorted (l : list KeyValue) : StronglySorted key_lt (NewSet l).
Proof.
  unfold NewSet.
  assert (G : forall acc, StronglySorted key_lt acc ->
    StronglySorted key_lt
      (fold_left (fun s kv => if Valid kv then upsert kv s else s) l acc)).
  { induction l as [| kv l IH]; intros acc Hacc; simpl; [exact Hacc |].
    apply IH. destruct (Valid kv); [apply upsert_sorted |]; exact Hacc. }
  apply G. constructor.
Qed.

(** Below an entry that precedes the whole set, no key is found. *)
Lemma Value_of_below (k : string) (x : KeyValue) (s : list KeyValue) :
  Forall (key_lt x) s ->
  k = Key x \/ compare_keys k (Key x) = Lt ->
  Value_of k s = None.
Proof.
  intros Hs Hk. induction Hs as [| y s Hy Hs IH]; simpl; [reflexivity |].
  assert (L : compare_keys k (Key y) = Lt).
  { destruct Hk as [-> | Hk]; [exact Hy |].
    exact (compare_keys_Lt_trans _ _ _ Hk Hy). }
  rewrite (compare_keys_Lt_neq _ _ L). exact IH.
Qed.

(** Two sorted sets that answer every key alike are the same list. *)
Lemma sorted_ext (s1 s2 : list KeyValue) :
  StronglySorted key_lt s1 -> StronglySorted key_lt s2 ->
  (forall k, Value_of k s1 = Value_of k s2) ->
  s1 = s2.
Proof.
  intros H1. revert s2.
  induction H1 as [| x s1 H1 IH Hx]; intros s2 H2 E.
  - destruct s2 as [| y s2]; [reflexivity |].
    specialize (E (Key y)). simpl in E.
    rewrite String.eqb_refl in E. discriminate.
  - destruct H2 as [| y s2 H2 Hy].
    { specialize (E (Key x)). simpl in E.
      rewrite String.eqb_refl in E. discriminate. }
    destruct (compare_keys (Key x) (Key y)) eqn:C.
    + apply compare_keys_Eq in C.
      assert (Exy : x = y).
      { specialize (E (Key x)). simpl in E.
        rewrite <- C, String.eqb_refl in E.
        destruct x, y; simpl in *; congruence. }
      subst y. f_equal. apply IH; [exact H2 |].
      intros k. specialize (E k). simpl in E.
      destruct (String.eqb_spec (Key x) k) as [Ek | N]; [| exact E].
      subst k. rewrite (Value_of_below (Key x) x s1 Hx) by (left; reflexivity).
      rewrite (Value_of_below (Key x) x s2 Hy) by (left; reflexivity).
      reflexivity.
    + specialize (E (Key x)). simpl in E.
      rewrite String.eqb_refl, (compare_keys_Lt_neq _ _ C) in E.
      rewrite (Value_of_below (Key x) y s2 Hy) in E by (right; exact C).
      discriminate.
    + apply compare_keys_Gt in C.
      specialize (E (Key y)). simpl in E.
      rewrite String.eqb_refl, (compare_keys_Lt_neq _ _ C) in E.
      rewrite (Value_of_below (Key y) x s1 Hx) in E by (right; exact C).
      discriminate.
Qed.

Lemma filter_sorted (f : KeyValue -> bool) (s : list KeyValue) :
  StronglySorted key_lt s -> StronglySorted key_lt (List.filter f s).
Proof.
  induction 1 as [| x s Hs IH Hx]; simpl; [constructor |].
  destruct (f x); [| exact IH].
  constructor; [exact IH |].
  rewrite List.Forall_forall in *.
  intros y Hy. apply List.filter_In in Hy. apply Hx, Hy.
Qed.

Lemma Value_of_filter (P : string -> bool) (k : string)
    (s : list KeyValue) :
  Value_of k (List.filter (fun kv => P (Key kv)) s) =
  if P k then Value_of k s else None.
Proof.
  induction s as [| x s IH]; simpl; [destruct (P k); reflexivity |].
  destruct (P (Key x)) eqn:Px; simpl; rewrite IH.
  - destruct (String.eqb_spec (Key x) k) as [<- | N]; [| reflexivity].
    rewrite Px. reflexivity.
  - destruct (String.eqb_spec (Key x) k) as [<- | N]; [| reflexivity].
    rewrite Px. reflexivity.
Qed.

(** Whatever a set held, once the three identity attributes are entered
    they are its entries under the identity keys, in key order. *)
Lemma identity_of_NewSet (l : list KeyValue) (c : Config) :
  List.filter is_identity (NewSet (l ++ identity_attributes c)) =
  identity_attributes c.
Proof.
  apply sorted_ext.
  - apply filter_sorted, NewSet_sorted.
  - repeat constructor.
  - intros k. unfold is_identity.
    rewrite (Value_of_filter is_identity_key).
    rewrite NewSet_app. unfold identity_attributes. cbn [fold_left].
    change (Valid (Key_String semconv.ServiceInstanceIDKey _)) with true.
    change (Valid (Key_String semconv.ServiceNameKey _)) with true.
    change (Valid (Key_String semconv.ServiceVersionKey _)) with true.
    cbv iota. rewrite !Value_of_upsert.
    unfold is_identity_key. cbn [Key_String Key Val Value_of].
    destruct (String.eqb_spec semconv.ServiceInstanceIDKey k) as [<- | N1];
      [reflexivity |].
    destruct (String.eqb_spec semconv.ServiceNameKey k) as [<- | N2];
      [reflexivity |].
    destruct (String.eqb_spec semconv.ServiceVersionKey k) as [<- | N3];
      reflexivity.
Qed.

Lemma NewSet_identity (c : Config) :
  NewSet [ Key_String semconv.ServiceNameKey (ServiceName c);
           Key_String semconv.ServiceVersionKey (ServiceVersion c);
           Key_String semconv.ServiceInstanceIDKey (ServiceInstanceID c) ] =
  identity_attributes c.
Proof. reflexivity. Qed.
End AttributeSets.

(** ** The resource descriptor *)

Section Resource.
Context `{SDK}.

(** The merge fails on a schema conflict and on nothing else. *)
Lemma Config_resource_cases (c : Config) (ctx : context.Context) :
  (exists r, Config_resource c ctx = (Some r, None)) \/
  (exists err, Config_resource c ctx = (None, Some err)).
Proof.
  unfold Config_resource. destruct (resource.New ctx) as [[d |] e]; simpl.
  - repeat (match goal with |- context [if ?b then _ else _] =>
              destruct b end); eauto.
  - eauto.
Qed.

Lemma Config_resource_attrs (c : Config) (ctx : context.Context)
    (res : option resource.Resource) :
  Config_resource c ctx = (res, None) ->
  exists r, res = Some r /\
    resource.attrs r =
    attribute.NewSet
      (resource.Attributes (resource.New ctx).1 ++ identity_attributes c).
Proof.
  unfold Config_resource. destruct (resource.New ctx) as [[d |] e]; simpl.
  - repeat (match goal with |- context [if ?b then _ else _] =>
              destruct b end);
      intros [= <-]; eexists; (split; [reflexivity |]);
      reflexivity.
  - intros [= <-]. eexists. split; reflexivity.
Qed.

(** A descriptor is produced unless the detected resource has a schema URL
    of its own that differs from that of the identity attributes. *)
Lemma Config_resource_succeeds (c : Config) (ctx : context.Context) :
  match (resource.New ctx).1 with
  | None => True
  | Some d =>
      resource.schemaURL d = "" \/ resource.schemaURL d = semconv.SchemaURL
  end ->
  exists r, Config_resource c ctx = (Some r, None).
Proof.
  unfold Config_resource. destruct (resource.New ctx) as [[d |] e]; simpl.
  - intros [-> | ->]; simpl; eauto.
  - eauto.
Qed.

Lemma Config_resource_identity (c : Config) (ctx : context.Context)
    (res : option resource.Resource) :
  Config_resource c ctx = (res, None) ->
  List.filter is_identity (resource.Attributes res) = identity_attributes c.
Proof.
  intros E. apply Config_resource_attrs in E as (r & -> & Er).
  simpl. rewrite Er. apply identity_of_NewSet.
Qed.
End Resource.

(** C1.  Whenever [Config.resource] produces a descriptor, the entries of the
    descriptor under the three identity keys are exactly the three identity
    attributes of the configuration, in the order instance id, name,
    version; and when the detectors report no attribute, these three are
    all the entries of the descriptor. *)
Theorem resource_identity_attributes `{SDK} (c : Config)
    (ctx : context.Context) (res : option resource.Resource) :
  Config_resource c ctx = (res, None) ->
  is_Some res /\
  List.filter is_identity (resource.Attributes res) = identity_attributes c /\
  (resource.Attributes (resource.New ctx).1 = [] ->
   resource.Attributes res = identity_attributes c).
Proof.
  intros E. split; [| split].
  - apply Config_resource_attrs in E as (r & -> & _). eexists; reflexivity.
  - exact (Config_resource_identity c ctx res E).
  - apply Config_resource_attrs in E as (r & -> & Er).
    simpl. rewrite Er. intros ->. reflexivity.
Qed.

Lemma resource_identity_attributes_witness :
  let res := (Config_resource (H := Sample.detected) Sample.config
                context.TODO).1 in
  List.filter is_identity (resource.Attributes res) =
    [ attribute.Key_String "service.instance.id" "sampleServiceID";
      attribute.Key_String "service.name" "sampleServiceName";
      attribute.Key_String "service.version" "v1.0.0.0" ] /\
  List.length (resource.Attributes res) = 6%nat.
Proof.
  split; [| vm_compute; reflexivity].
  refine (proj1 (proj2 (resource_identity_attributes (H := Sample.detected)
            Sample.config context.TODO _ _))).
  vm_compute. reflexivity.
Defined.

(** The descriptor of the test [TestExporter_CreateOTELResources]. *)
Example resource_of_test :
  map (fun kv => attribute.AsString (attribute.Val kv))
    (resource.Attributes
       (Config_resource (H := Sample.plain) Sample.config context.TODO).1) =
  [ "sampleServiceID"; "sampleServiceName"; "v1.0.0.0" ].
Proof. vm_compute. reflexivity. Qed.

(** C10.  A descriptor produced by [Config.resource] answers each identity
    key, also when the field of the configuration is the empty string: the
    attribute is then present with the empty string as its value. *)
Theorem resource_keeps_empty_fields `{SDK} (c : Config)
    (ctx : context.Context) (res : option resource.Resource)
    (k v : string) :
  Config_resource c ctx = (res, None) ->
  In (k, v) (identity_fields c) ->
  v = "" ->
  attribute.Value_of k (resource.Attributes res) =
    Some (attribute.STRING "") /\
  In (attribute.Key_String k "") (resource.Attributes res).
Proof.
  intros E Hin ->.
  apply Config_resource_identity in E as F.
  assert (Hid : In (attribute.Key_String k "") (identity_attributes c)).
  { unfold identity_fields in Hin. unfold identity_attributes. simpl in *.
    destruct Hin as [[= <- <-] | [[= <- <-] | [[= <- <-] | []]]]; auto. }
  assert (Hk : is_identity_key k = true).
  { unfold identity_fields in Hin. simpl in Hin.
    destruct Hin as [[= <- _] | [[= <- _] | [[= <- _] | []]]]; reflexivity. }
  assert (V : attribute.Value_of k (identity_attributes c) =
              Some (attribute.STRING "")).
  { unfold identity_fields in Hin. unfold identity_attributes. simpl in *.
    destruct Hin as [[= <- <-] | [[= <- <-] | [[= <- <-] | []]]];
      reflexivity. }
  split.
  - rewrite <- F in V. unfold is_identity in V.
    rewrite (Value_of_filter is_identity_key), Hk in V. exact V.
  - rewrite <- F in Hid. apply List.filter_In in Hid. apply Hid.
Qed.

Lemma resource_keeps_empty_fields_witness :
  let c := {| ServiceName := ""; ServiceVersion := "";
              ServiceInstanceID := ""; Writer := None;
              APIKey := ""; URL := "" |} in
  let res := (Config_resource (H := Sample.plain) c context.TODO).1 in
  attribute.Value_of "service.name" (resource.Attributes res) =
    Some (attribute.STRING "") /\
  In (attribute.Key_String "service.name" "") (resource.Attributes res).
Proof.
  intros c res.
  apply (resource_keeps_empty_fields (H := Sample.plain) c context.TODO res
           "service.name" "").
  - vm_compute. reflexivity.
  - simpl. left. reflexivity.
  - reflexivity.
Defined.

(** ** The factory and the configuration resolver *)

(** C2.  For an output type that is neither [IO] nor [GRPC], and any
    configuration, [NewExporter] returns the [nil] exporter.  The function
    is total and has no error result: it neither fails nor blocks. *)
Theorem NewExporter_unknown (outputType : OutputType) (c : Config) :
  outputType <> IO -> outputType <> GRPC -> NewExporter outputType c = None.
Proof.
  intros NIO NGRPC. unfold NewExporter.
  destruct (Z.eqb_spec outputType IO) as [E | _]; [contradiction |].
  destruct (Z.eqb_spec outputType GRPC) as [E | _]; [contradiction |].
  reflexivity.
Qed.

Lemma NewExporter_unknown_witness : NewExporter 2 Sample.config = None.
Proof.
  apply (NewExporter_unknown 2 Sample.config); unfold IO, GRPC; lia.
Defined.

(** The two supported output types give the two exporters. *)
Lemma NewExporter_supported (c : Config) :
  NewExporter IO c = Some (Exporter_io {| io_Config := c |}) /\
  NewExporter GRPC c = Some (Exporter_grpc {| grpc_Config := c |}).
Proof. split; reflexivity. Qed.

(** C5.  [NewENVConfig] is a total function of the environment.  Each of the
    five variables fills its field with its value as it stands, whatever the
    value, and with the empty string when the variable is absent; the writer
    is [nil]; and two environments that agree on the five variables give the
    same configuration, so nothing else is read. *)
Theorem NewENVConfig_reads_environment (env : gmap string string) :
  (forall k f v, In (k, f) env_fields -> env !! k = Some v ->
     f (NewENVConfig env) = v) /\
  (forall k f, In (k, f) env_fields -> env !! k = None ->
     f (NewENVConfig env) = "") /\
  Writer (NewENVConfig env) = None /\
  (forall env' : gmap string string,
     (forall k f, In (k, f) env_fields -> env' !! k = env !! k) ->
     NewENVConfig env' = NewENVConfig env).
Proof.
  repeat split.
  - intros k f v Hin Hk. simpl in Hin.
    repeat (destruct Hin as [[= <- <-] | Hin];
            [unfold NewENVConfig, os.Getenv; simpl; rewrite Hk; reflexivity |]).
    destruct Hin.
  - intros k f Hin Hk. simpl in Hin.
    repeat (destruct Hin as [[= <- <-] | Hin];
            [unfold NewENVConfig, os.Getenv; simpl; rewrite Hk; reflexivity |]).
    destruct Hin.
  - intros env' Hagree. unfold NewENVConfig, os.Getenv.
    rewrite (Hagree "OTEL_SERVICE_NAME" ServiceName) by (simpl; auto).
    rewrite (Hagree "OTEL_SERVICE_VERSION" ServiceVersion) by (simpl; auto).
    rewrite (Hagree "OTEL_SERVICE_ID" ServiceInstanceID) by (simpl; auto).
    rewrite (Hagree "OTEL_GRPC_API_KEY" APIKey) by (simpl; auto 6).
    rewrite (Hagree "OTEL_GRPC_URL" URL) by (simpl; auto 6).
    reflexivity.
Qed.

(** In the environment of the tests, and in an empty environment. *)
Example NewENVConfig_of_test :
  NewENVConfig Sample.env =
  {| ServiceName := "sampleServiceName";
     ServiceVersion := "v1.0.0.0";
     ServiceInstanceID := "sampleServiceID";
     Writer := None;
     APIKey := "sampleApiKey";
     URL := "otlp.nr-data.net:4317" |}.
Proof. vm_compute. reflexivity. Qed.

Example NewENVConfig_of_empty :
  NewENVConfig ∅ =
  {| ServiceName := ""; ServiceVersion := ""; ServiceInstanceID := "";
     Writer := None; APIKey := ""; URL := "" |}.
Proof. vm_compute. reflexivity. Qed.

(** ** The pipelines *)

Section PipelineFacts.
Context `{SDK}.

(** The two ways a pipeline ends.  When the export adapter cannot be built
    the process is left as it was and the cause comes back wrapped. *)
Lemma ExportPipeline_failed (e : Exporter) (ctx : context.Context)
    (w : World) (cause : error) :
  construction_error e ctx = Some cause ->
  exists prefix : string,
    ExportPipeline e ctx w = ((None, Some (fmt.Errorf_w prefix cause)), w).
Proof.
  destruct e as [c | g]; simpl.
  - unfold ioOutput_ExportPipeline.
    destruct (stdouttrace.New _) as [exp [err |]]; simpl; intros [= ->].
    eexists. reflexivity.
  - unfold grpcOutput_ExportPipeline.
    destruct (otlptrace.New _ _) as [exp [err |]]; simpl; intros [= ->].
    eexists. reflexivity.
Qed.

(** When the export adapter is built, a provider is allocated behind the
    heap and made the global provider; its last span processor feeds the
    adapter, and it holds the resource of the configuration if there is
    one. *)
Lemma ExportPipeline_built (e : Exporter) (ctx : context.Context)
    (w : World) :
  construction_error e ctx = None ->
  exists (tp : trace.TracerProvider) (bsp : trace.SpanProcessor),
    ExportPipeline e ctx w =
      ((Some (List.length (heap w)), None),
       {| heap := (heap w ++ [tp])%list;
          globalTracerProvider := Some (List.length (heap w)) |}) /\
    trace.resource tp = (Config_resource (Exporter_Config e) ctx).1 /\
    trace.spanProcessors tp =
      (trace.spanProcessors trace.providerDefaults ++ [bsp])%list /\
    is_Some (trace.e bsp).
Proof.
  destruct e as [c | g]; simpl.
  - unfold ioOutput_ExportPipeline, stdouttrace.New, stdouttrace.newConfig.
    destruct (stdouttrace.check _) as [err |]; simpl; intros [= ].
    destruct (Config_resource _ _) as [r re].
    do 2 eexists. repeat split; [reflexivity .. | eexists; reflexivity].
  - unfold grpcOutput_ExportPipeline, otlptrace.New.
    destruct (otlptrace.Start _ _) as [err |]; simpl; intros [= ].
    destruct (Config_resource _ _) as [r re].
    do 2 eexists. repeat split; [reflexivity .. | eexists; reflexivity].
Qed.

Lemma ExportPipeline_cases (e : Exporter) (ctx : context.Context)
    (w : World) :
  (exists tp bsp,
     construction_error e ctx = None /\
     ExportPipeline e ctx w =
       ((Some (List.length (heap w)), None),
        {| heap := (heap w ++ [tp])%list;
           globalTracerProvider := Some (List.length (heap w)) |}) /\
     trace.resource tp = (Config_resource (Exporter_Config e) ctx).1 /\
     trace.spanProcessors tp =
       (trace.spanProcessors trace.providerDefaults ++ [bsp])%list /\
     is_Some (trace.e bsp)) \/
  (exists prefix cause,
     construction_error e ctx = Some cause /\
     ExportPipeline e ctx w = ((None, Some (fmt.Errorf_w prefix cause)), w)).
Proof.
  destruct (construction_error e ctx) as [cause |] eqn:C.
  - right. destruct (ExportPipeline_failed e ctx w cause C) as [prefix E].
    eauto.
  - left. destruct (ExportPipeline_built e ctx w C) as (tp & bsp & E & R).
    exists tp, bsp. split; [reflexivity | split; [exact E | exact R]].
Qed.
End PipelineFacts.

(** C4.  [ExportPipeline], for either exporter, ends in one of two ways:
    with a handle to an allocated provider whose span processor feeds a
    built export adapter, and no error; or with no handle and an error that
    wraps the error of the adapter's constructor, the process left as it
    was.  A handle never comes with an error, and one of the two always
    comes. *)
Theorem ExportPipeline_outcome `{SDK} (e : Exporter) (ctx : context.Context)
    (w : World) :
  (exists p w' tp bsp,
     ExportPipeline e ctx w = ((Some p, None), w') /\
     heap w' !! p = Some tp /\
     last (trace.spanProcessors tp) = Some bsp /\
     is_Some (trace.e bsp)) \/
  (exists err cause,
     ExportPipeline e ctx w = ((None, Some err), w) /\
     construction_error e ctx = Some cause /\
     Unwrap err = Some cause).
Proof.
  destruct (ExportPipeline_cases e ctx w)
    as [(tp & bsp & _ & E & _ & P & X) | (prefix & cause & C & E)].
  - left. exists (List.length (heap w)). do 3 eexists.
    split; [exact E |]. simpl. split; [apply list_lookup_middle; reflexivity |].
    rewrite P, last_snoc. split; [reflexivity | exact X].
  - right. do 2 eexists. split; [exact E |]. split; [exact C | reflexivity].
Qed.

(** C6.  When [ExportPipeline] returns a provider and no error, the global
    provider of the process is that provider: the same pointer, to a
    provider that was not on the heap before the call. *)
Theorem ExportPipeline_installs_global `{SDK} (e : Exporter)
    (ctx : context.Context) (w w' : World) (p : trace.Ref) :
  ExportPipeline e ctx w = ((Some p, None), w') ->
  (otel.GetTracerProvider w').1 = Some p /\
  heap w !! p = None /\
  is_Some (heap w' !! p).
Proof.
  intros E.
  destruct (ExportPipeline_cases e ctx w)
    as [(tp & bsp & _ & E' & _) | (prefix & cause & _ & E')];
    rewrite E in E'; [| discriminate].
  injection E' as -> ->. simpl. split; [reflexivity |]. split.
  - apply lookup_ge_None_2. reflexivity.
  - exists tp. apply list_lookup_middle. reflexivity.
Qed.

Lemma ExportPipeline_installs_global_witness :
  let w' := {| heap := [ Sample.idle ];
               globalTracerProvider := Some 0%nat |} in
  let out := ExportPipeline (H := Sample.plain)
               (Exporter_io {| io_Config := Sample.config |})
               context.TODO w' in
  (otel.GetTracerProvider out.2).1 = Some 1%nat /\
  heap w' !! 1%nat = None /\
  is_Some (heap out.2 !! 1%nat).
Proof.
  intros w' out.
  apply (ExportPipeline_installs_global (H := Sample.plain)
           (Exporter_io {| io_Config := Sample.config |})
           context.TODO w' out.2 1%nat).
  vm_compute. reflexivity.
Defined.

(** C7.  When the export adapter is built and [Config.resource] returns an
    error, [ExportPipeline] still returns a provider and no error; the
    provider was handed the [nil] resource. *)
Theorem ExportPipeline_ignores_resource_error `{SDK} (e : Exporter)
    (ctx : context.Context) (w : World) (merr : error) :
  (Config_resource (Exporter_Config e) ctx).2 = Some merr ->
  construction_error e ctx = None ->
  exists p w' tp,
    ExportPipeline e ctx w = ((Some p, None), w') /\
    heap w' !! p = Some tp /\
    trace.resource tp = None.
Proof.
  intros M C.
  destruct (ExportPipeline_cases e ctx w)
    as [(tp & bsp & _ & E & R & _) | (prefix & cause & C' & _)];
    [| congruence].
  exists (List.length (heap w)). do 2 eexists.
  split; [exact E |]. simpl. split; [apply list_lookup_middle; reflexivity |].
  rewrite R.
  destruct (Config_resource_cases (Exporter_Config e) ctx)
    as [[r Er] | [err Er]]; rewrite Er in *; [discriminate | reflexivity].
Qed.

Lemma ExportPipeline_ignores_resource_error_witness :
  exists p w' tp,
    ExportPipeline (H := Sample.other_schema)
      (Exporter_grpc {| grpc_Config := Sample.config |})
      context.TODO Sample.fresh = ((Some p, None), w') /\
    heap w' !! p = Some tp /\
    trace.resource tp = None.
Proof.
  apply (ExportPipeline_ignores_resource_error (H := Sample.other_schema)
           (Exporter_grpc {| grpc_Config := Sample.config |})
           context.TODO Sample.fresh
           (fmt.Errorf_w "could not create resource: "
              resource.errMergeConflictSchemaURL)).
  - vm_compute. reflexivity.
  - vm_compute. reflexivity.
Defined.

(** C9.  When [ExportPipeline] returns no handle and an error, the process
    is as it was before the call, its global provider included; and the
    export adapter was not built.  So the global provider changes only once
    the adapter is built. *)
Theorem ExportPipeline_failure_keeps_global `{SDK} (e : Exporter)
    (ctx : context.Context) (w w' : World) (err : error) :
  ExportPipeline e ctx w = ((None, Some err), w') ->
  w' = w /\
  (otel.GetTracerProvider w').1 = (otel.GetTracerProvider w).1 /\
  is_Some (construction_error e ctx).
Proof.
  intros E.
  destruct (ExportPipeline_cases e ctx w)
    as [(tp & bsp & _ & E' & _) | (prefix & cause & C & E')];
    rewrite E in E'; [discriminate |].
  injection E' as _ ->. rewrite C. eauto.
Qed.

Lemma ExportPipeline_failure_keeps_global_witness :
  let w := {| heap := [ Sample.idle ];
              globalTracerProvider := Some 0%nat |} in
  let out := ExportPipeline (H := Sample.failing)
               (Exporter_grpc {| grpc_Config := Sample.config |})
               context.TODO w in
  out.2 = w /\
  (otel.GetTracerProvider out.2).1 = Some 0%nat /\
  is_Some (construction_error (H := Sample.failing)
             (Exporter_grpc {| grpc_Config := Sample.config |}) context.TODO).
Proof.
  intros w out.
  apply (ExportPipeline_failure_keeps_global (H := Sample.failing)
           (Exporter_grpc {| grpc_Config := Sample.config |})
           context.TODO w out.2
           (fmt.Errorf_w "creating OTLP trace exporter: "
              (errorString "context deadline exceeded"))).
  vm_compute. reflexivity.
Defined.

(** The client of the remote pipeline also carries the endpoint of the
    configuration and dials blocking. *)
Lemma grpc_client_endpoint `{SDK} (g : grpcOutput) :
  let client := otlptracegrpc.cfg (otlptracegrpc.NewClient (clientOpts g)) in
  otlptracegrpc.Endpoint client = URL (grpc_Config g) /\
  otlptracegrpc.DialOptions client = [ grpc.WithBlock ].
Proof. split; reflexivity. Qed.


(** The provider of the remote pipeline in a process whose collector
    answers. *)
Example grpc_pipeline_of_test :
  let out := grpcOutput_ExportPipeline (H := Sample.plain)
               {| grpc_Config := Sample.config |} context.TODO
               Sample.fresh in
  out.1 = (Some 0%nat, None) /\
  globalTracerProvider out.2 = Some 0%nat /\
  (trace.sampler <$> heap out.2 !! 0%nat) = Some trace.AlwaysSample.
Proof. vm_compute. repeat split. Qed.

(** C8.  The local pipeline does not read the API key and the endpoint: with
    both empty it does what it does with any values for them, and it
    succeeds as soon as the SDK takes the writer.  The remote pipeline does
    not read the writer: with a [nil] writer it does what it does with any
    writer, and it succeeds as soon as the client starts. *)
Theorem ExportPipeline_irrelevant_fields `{SDK} (c : Config)
    (ctx : context.Context) (w : World) :
  (ioOutput_ExportPipeline {| io_Config := without_remote c |} ctx w =
   ioOutput_ExportPipeline {| io_Config := c |} ctx w) /\
  (grpcOutput_ExportPipeline {| grpc_Config := without_Writer c |} ctx w =
   grpcOutput_ExportPipeline {| grpc_Config := c |} ctx w) /\
  (stdouttrace.check
     (stdouttrace.WithWriter (Writer c) stdouttrace.defaults) = None ->
   exists p w',
     ioOutput_ExportPipeline {| io_Config := without_remote c |} ctx w =
       ((Some p, None), w')) /\
  (otlptrace.Start ctx
     (otlptracegrpc.NewClient (clientOpts {| grpc_Config := c |})) = None ->
   exists p w',
     grpcOutput_ExportPipeline {| grpc_Config := without_Writer c |} ctx w =
       ((Some p, None), w')).
Proof.
  split; [reflexivity |]. split; [reflexivity |]. split.
  - intros A.
    destruct (ExportPipeline_built
                (Exporter_io {| io_Config := without_remote c |}) ctx w)
      as (tp & bsp & E & _).
    + simpl. unfold stdouttrace.New, stdouttrace.newConfig. simpl.
      rewrite A. reflexivity.
    + do 2 eexists. exact E.
  - intros A.
    destruct (ExportPipeline_built
                (Exporter_grpc {| grpc_Config := without_Writer c |}) ctx w)
      as (tp & bsp & E & _).
    + simpl. unfold otlptrace.New.
      change (clientOpts {| grpc_Config := without_Writer c |})
        with (clientOpts {| grpc_Config := c |}).
      rewrite A. reflexivity.
    + do 2 eexists. exact E.
Qed.

Lemma ExportPipeline_irrelevant_fields_witness :
  (exists p w',
     ioOutput_ExportPipeline (H := Sample.plain)
       {| io_Config := without_remote Sample.config |} context.TODO
       Sample.fresh = ((Some p, None), w')) /\
  (exists p w',
     grpcOutput_ExportPipeline (H := Sample.plain)
       {| grpc_Config := without_Writer Sample.config |} context.TODO
       Sample.fresh = ((Some p, None), w')).
Proof.
  pose proof (ExportPipeline_irrelevant_fields (H := Sample.plain)
                Sample.config context.TODO Sample.fresh)
    as (_ & _ & I & G).
  split; [apply I | apply G]; vm_compute; reflexivity.
Defined.

(** ** The environment helpers of the tests *)

(** Every call of [setEnv] is accepted, so [setEnv] sets its five
    variables over whatever the environment held. *)
Lemma setEnv_inserts (env : gmap string string) :
  setEnv env =
  <["OTEL_GRPC_URL" := "otlp.nr-data.net:4317"]>
  (<["OTEL_GRPC_API_KEY" := "sampleApiKey"]>
  (<["OTEL_SERVICE_ID" := "sampleServiceID"]>
  (<["OTEL_SERVICE_VERSION" := "v1.0.0.0"]>
  (<["OTEL_SERVICE_NAME" := "sampleServiceName"]> env)))).
Proof. reflexivity. Qed.

Lemma unsetEnv_deletes (env : gmap string string) :
  unsetEnv env =
  delete "OTEL_GRPC_URL"
  (delete "OTEL_GRPC_API_KEY"
  (delete "OTEL_SERVICE_ID"
  (delete "OTEL_SERVICE_VERSION"
  (delete "OTEL_SERVICE_NAME" env)))).
Proof. reflexivity. Qed.

Lemma env_names_cases (k : string) :
  k ∈ env_names \/
  (k <> "OTEL_SERVICE_NAME" /\ k <> "OTEL_SERVICE_VERSION" /\
   k <> "OTEL_SERVICE_ID" /\ k <> "OTEL_GRPC_API_KEY" /\
   k <> "OTEL_GRPC_URL" /\ k ∉ env_names).
Proof.
  unfold env_names. simpl.
  destruct (decide (k ∈ ["OTEL_SERVICE_NAME"; "OTEL_SERVICE_VERSION";
                         "OTEL_SERVICE_ID"; "OTEL_GRPC_API_KEY";
                         "OTEL_GRPC_URL"])) as [I | N]; [left; exact I |].
  right. repeat split; try exact N; intros ->; apply N; set_solver.
Qed.

(** X1.  After [setEnv], in whatever environment it ran, [NewENVConfig]
    reads the configuration of the tests: earlier values of the five
    variables are overwritten. *)
Theorem NewENVConfig_after_setEnv (env : gmap string string) :
  NewENVConfig (setEnv env) =
  {| ServiceName := "sampleServiceName";
     ServiceVersion := "v1.0.0.0";
     ServiceInstanceID := "sampleServiceID";
     Writer := None;
     APIKey := "sampleApiKey";
     URL := "otlp.nr-data.net:4317" |}.
Proof.
  rewrite setEnv_inserts. unfold NewENVConfig, os.Getenv.
  by simplify_map_eq.
Qed.

(** X2.  After [unsetEnv], in whatever environment it ran (that left by
    [setEnv] included), the five variables are absent and [NewENVConfig]
    reads the configuration with every field empty. *)
Theorem NewENVConfig_after_unsetEnv (env : gmap string string) :
  (forall k, k ∈ env_names -> unsetEnv env !! k = None) /\
  NewENVConfig (unsetEnv env) =
  {| ServiceName := ""; ServiceVersion := ""; ServiceInstanceID := "";
     Writer := None; APIKey := ""; URL := "" |} /\
  NewENVConfig (unsetEnv (setEnv env)) = NewENVConfig (unsetEnv env).
Proof.
  assert (A : forall e k, k ∈ env_names -> unsetEnv e !! k = None).
  { intros e k Hk. rewrite unsetEnv_deletes. unfold env_names in Hk.
    simpl in Hk. set_unfold in Hk.
    destruct Hk as [-> | [-> | [-> | [-> | [-> | []]]]]];
      by simplify_map_eq. }
  assert (B : forall e, NewENVConfig (unsetEnv e) =
    {| ServiceName := ""; ServiceVersion := ""; ServiceInstanceID := "";
       Writer := None; APIKey := ""; URL := "" |}).
  { intros e. unfold NewENVConfig, os.Getenv.
    rewrite !A by (unfold env_names; simpl; set_solver). reflexivity. }
  split; [apply A |]. split; [apply B |]. rewrite !B. reflexivity.
Qed.

(** X3.  [setEnv] followed by [unsetEnv] touches the five variables only:
    every other variable keeps its value, and an environment that held none
    of the five is restored as it was. *)
Theorem unsetEnv_setEnv_restores (env : gmap string string) :
  (forall k, k ∈ env_names -> env !! k = None) ->
  (forall k, k ∉ env_names -> setEnv env !! k = env !! k) /\
  unsetEnv (setEnv env) = env.
Proof.
  intros Hfree. split.
  - intros k Hk. rewrite setEnv_inserts.
    destruct (env_names_cases k) as [I | (N1 & N2 & N3 & N4 & N5 & _)];
      [contradiction |].
    by rewrite !lookup_insert_ne.
  - apply map_eq. intros k.
    rewrite unsetEnv_deletes, setEnv_inserts.
    destruct (env_names_cases k) as [I | (N1 & N2 & N3 & N4 & N5 & _)].
    + rewrite (Hfree k I). unfold env_names in I. simpl in I.
      set_unfold in I.
      destruct I as [-> | [-> | [-> | [-> | [-> | []]]]]];
        by simplify_map_eq.
    + rewrite !lookup_delete_ne by done. by rewrite !lookup_insert_ne.
Qed.

Lemma unsetEnv_setEnv_restores_witness :
  let env : gmap string string := {[ "HOME" := "/root" ]} in
  (forall k, k ∉ env_names -> setEnv env !! k = env !! k) /\
  unsetEnv (setEnv env) = env.
Proof.
  intros env. apply (unsetEnv_setEnv_restores env).
  intros k Hk. unfold env, env_names in *. simpl in Hk. set_unfold in Hk.
  destruct Hk as [-> | [-> | [-> | [-> | [-> | []]]]]]; reflexivity.
Defined.

(** ** More on the factory and the pipelines *)

(** X4.  [NewExporter] returns an exporter for the output types [IO] and
    [GRPC] only, and the exporter it returns is of the kind asked for and
    embeds the configuration it was given. *)
Theorem NewExporter_some (outputType : OutputType) (c : Config)
    (e : Exporter) :
  NewExporter outputType c = Some e ->
  Exporter_Config e = c /\
  ((outputType = IO /\ e = Exporter_io {| io_Config := c |}) \/
   (outputType = GRPC /\ e = Exporter_grpc {| grpc_Config := c |})).
Proof.
  unfold NewExporter.
  destruct (Z.eqb_spec outputType IO) as [-> | _].
  - intros [= <-]. split; [reflexivity | left; split; reflexivity].
  - destruct (Z.eqb_spec outputType GRPC) as [-> | _]; [| discriminate].
    intros [= <-]. split; [reflexivity | right; split; reflexivity].
Qed.

Lemma NewExporter_some_witness :
  Exporter_Config (Exporter_grpc {| grpc_Config := Sample.config |}) =
    Sample.config /\
  ((1 = IO /\ Exporter_grpc {| grpc_Config := Sample.config |} =
               Exporter_io {| io_Config := Sample.config |}) \/
   (1 = GRPC /\ Exporter_grpc {| grpc_Config := Sample.config |} =
                 Exporter_grpc {| grpc_Config := Sample.config |})).
Proof.
  apply (NewExporter_some 1 Sample.config
           (Exporter_grpc {| grpc_Config := Sample.config |})).
  reflexivity.
Defined.


(** X6.  The provider a pipeline returns holds the descriptor of
    [Config.resource]: when the merge succeeded, the entries of the
    provider's resource under the identity keys are the identity attributes
    of the exporter's configuration. *)
Theorem ExportPipeline_resource_identity `{SDK} (e : Exporter)
    (ctx : context.Context) (w w' : World) (p : trace.Ref)
    (tp : trace.TracerProvider) :
  ExportPipeline e ctx w = ((Some p, None), w') ->
  heap w' !! p = Some tp ->
  (Config_resource (Exporter_Config e) ctx).2 = None ->
  is_Some (trace.resource tp) /\
  List.filter is_identity (resource.Attributes (trace.resource tp)) =
    identity_attributes (Exporter_Config e).
Proof.
  intros E L M.
  destruct (ExportPipeline_cases e ctx w)
    as [(tp' & bsp & _ & E' & R & _) | (prefix & cause & _ & E')];
    rewrite E in E'; [| discriminate].
  injection E' as -> ->. cbn [heap] in L.
  assert (L' : (heap w ++ [tp'])%list !! List.length (heap w) = Some tp')
    by (apply list_lookup_middle; reflexivity).
  assert (Etp : Some tp' = Some tp)
    by (etransitivity; [symmetry; exact L' | exact L]).
  injection Etp as <-. rewrite R.
  destruct (Config_resource (Exporter_Config e) ctx) as [res err] eqn:C.
  simpl in M. subst err. simpl. split.
  - apply Config_resource_attrs in C as (r & -> & _). eexists; reflexivity.
  - exact (Config_resource_identity _ _ _ C).
Qed.

Lemma ExportPipeline_resource_identity_witness :
  let e := Exporter_io {| io_Config := Sample.config |} in
  let out := ExportPipeline (H := Sample.detected) e context.TODO
               Sample.fresh in
  exists tp, heap out.2 !! 0%nat = Some tp /\
    is_Some (trace.resource tp) /\
    List.filter is_identity (resource.Attributes (trace.resource tp)) =
      identity_attributes Sample.config.
Proof.
  intros e out. eexists. split; [vm_compute; reflexivity |].
  apply (ExportPipeline_resource_identity (H := Sample.detected) e
           context.TODO Sample.fresh out.2 0%nat).
  - vm_compute. reflexivity.
  - vm_compute. reflexivity.
  - vm_compute. reflexivity.
Defined.

(** ** More on the resource descriptor *)

(** X7.  [Config.resource] ends in one of two ways.  Either it returns a
    descriptor and no error; the descriptor then carries the schema URL of
    the semantic conventions, and the detected resource was [nil] or had no
    schema URL or the same one.  Or the detected resource has another schema
    URL; it then returns no descriptor and the conflict of [resource.Merge]
    wrapped under its own message. *)
Theorem Config_resource_outcome `{SDK} (c : Config) (ctx : context.Context) :
  (exists r,
     Config_resource c ctx = (Some r, None) /\
     resource.schemaURL r = semconv.SchemaURL /\
     match (resource.New ctx).1 with
     | None => True
     | Some d =>
         resource.schemaURL d = "" \/ resource.schemaURL d = semconv.SchemaURL
     end) \/
  (exists d err,
     (resource.New ctx).1 = Some d /\
     resource.schemaURL d <> "" /\
     resource.schemaURL d <> semconv.SchemaURL /\
     Config_resource c ctx = (None, Some err) /\
     Unwrap err = Some resource.errMergeConflictSchemaURL /\
     Error err =
       "could not create resource: cannot merge resource due to conflicting Schema URL").
Proof.
  unfold Config_resource. destruct (resource.New ctx) as [[d |] e]; simpl.
  - destruct (String.eqb_spec (resource.schemaURL d) "") as [E0 | N0].
    { left. eexists. repeat split. left. exact E0. }
    simpl.
    destruct (String.eqb_spec (resource.schemaURL d) semconv.SchemaURL)
      as [E1 | N1].
    { left. eexists. split; [reflexivity |]. split; [exact E1 |].
      right. exact E1. }
    right. exists d. eexists. repeat split; assumption.
  - left. eexists. repeat split.
Qed.

Section DetectedAttributes.
Import attribute.

(** Entering a set into an accumulator: the set answers first. *)
Lemma Value_of_fold_set (k : string) (l acc : list KeyValue) :
  is_set l ->
  Value_of k (fold_left (fun s kv => if Valid kv then upsert kv s else s)
                l acc) =
  match Value_of k l with
  | Some v => Some v
  | None => Value_of k acc
  end.
Proof.
  intros [S V]. revert acc.
  induction S as [| x l S IH Hx]; intros acc; simpl; [reflexivity |].
  inversion V as [| ? ? Vx Vl]; subst. rewrite Vx, (IH Vl), Value_of_upsert.
  destruct (String.eqb_spec (Key x) k) as [Ek | N]; [| reflexivity].
  subst k. rewrite (Value_of_below (Key x) x l Hx) by (left; reflexivity).
  reflexivity.
Qed.

Lemma Value_of_NewSet_set (k : string) (l : list KeyValue) :
  is_set l -> Value_of k (NewSet l) = Value_of k l.
Proof.
  intros S. unfold NewSet. rewrite (Value_of_fold_set k l [] S).
  destruct (Value_of k l); reflexivity.
Qed.

Lemma Value_of_NewSet_other (k : string) (l : list KeyValue) (c : Config) :
  is_identity_key k = false ->
  Value_of k (NewSet (l ++ identity_attributes c)) = Value_of k (NewSet l).
Proof.
  unfold is_identity_key. intros N.
  apply orb_false_elim in N as [N N3]. apply orb_false_elim in N as [N1 N2].
  rewrite NewSet_app. unfold identity_attributes. cbn [fold_left].
  change (Valid (Key_String semconv.ServiceInstanceIDKey _)) with true.
  change (Valid (Key_String semconv.ServiceNameKey _)) with true.
  change (Valid (Key_String semconv.ServiceVersionKey _)) with true.
  cbv iota. rewrite !Value_of_upsert. cbn [Key_String Key Val].
  rewrite N1, N2, N3. reflexivity.
Qed.
End DetectedAttributes.

(** X8.  A descriptor produced by [Config.resource] keeps what the
    detectors report under every key other than the three identity keys:
    when the detected attributes are a set, each such key has in the
    descriptor the value it has in the detected resource, or none if it has
    none there. *)
Theorem Config_resource_keeps_detected `{SDK} (c : Config)
    (ctx : context.Context) (res : option resource.Resource) (k : string) :
  Config_resource c ctx = (res, None) ->
  is_set (resource.Attributes (resource.New ctx).1) ->
  is_identity_key k = false ->
  attribute.Value_of k (resource.Attributes res) =
  attribute.Value_of k (resource.Attributes (resource.New ctx).1).
Proof.
  intros E S N. apply Config_resource_attrs in E as (r & -> & Er).
  simpl. rewrite Er, (Value_of_NewSet_other k _ c N).
  apply Value_of_NewSet_set, S.
Qed.

Lemma Config_resource_keeps_detected_witness :
  attribute.Value_of "host.name"
    (resource.Attributes
       (Config_resource (H := Sample.detected) Sample.config
          context.TODO).1) =
  Some (attribute.STRING "build-7").
Proof.
  apply (Config_resource_keeps_detected (H := Sample.detected) Sample.config
           context.TODO _ "host.name").
  - vm_compute. reflexivity.
  - split; repeat constructor.
  - reflexivity.
Defined.

(** ** Pipelines and the state of the process *)



(** X10.  Of two pipelines built one after the other, each has a provider
    of its own; the first stays on the heap as it was built, and the global
    provider of the process is the second. *)
Theorem ExportPipeline_twice `{SDK} (e1 e2 : Exporter)
    (ctx1 ctx2 : context.Context) (w w1 w2 : World) (p1 p2 : trace.Ref) :
  ExportPipeline e1 ctx1 w = ((Some p1, None), w1) ->
  ExportPipeline e2 ctx2 w1 = ((Some p2, None), w2) ->
  p1 <> p2 /\
  globalTracerProvider w1 = Some p1 /\
  globalTracerProvider w2 = Some p2 /\
  is_Some (heap w1 !! p1) /\
  heap w2 !! p1 = heap w1 !! p1.
Proof.
  intros E1 E2.
  destruct (ExportPipeline_cases e1 ctx1 w)
    as [(tp1 & bsp1 & _ & E1' & _) | (prefix & cause & _ & E1')];
    rewrite E1 in E1'; [| discriminate].
  injection E1' as -> ->.
  destruct (ExportPipeline_cases e2 ctx2
              {| heap := (heap w ++ [tp1])%list;
                 globalTracerProvider := Some (List.length (heap w)) |})
    as [(tp2 & bsp2 & _ & E2' & _) | (prefix & cause & _ & E2')];
    rewrite E2 in E2'; [| discriminate].
  injection E2' as -> ->. cbn [heap globalTracerProvider].
  assert (L1 : (heap w ++ [tp1])%list !! List.length (heap w) = Some tp1)
    by (apply list_lookup_middle; reflexivity).
  split; [rewrite length_app; simpl; lia |].
  split; [reflexivity |]. split; [reflexivity |].
  split; [eexists; exact L1 |].
  etransitivity; [| symmetry; exact L1].
  apply lookup_app_l_Some. exact L1.
Qed.

Lemma ExportPipeline_twice_witness :
  let e1 := Exporter_io {| io_Config := Sample.config |} in
  let e2 := Exporter_grpc {| grpc_Config := Sample.config |} in
  let w1 := (ExportPipeline (H := Sample.plain) e1 context.TODO
               Sample.fresh).2 in
  let w2 := (ExportPipeline (H := Sample.plain) e2 context.TODO w1).2 in
  0%nat <> 1%nat /\
  globalTracerProvider w1 = Some 0%nat /\
  globalTracerProvider w2 = Some 1%nat /\
  is_Some (heap w1 !! 0%nat) /\
  heap w2 !! 0%nat = heap w1 !! 0%nat.
Proof.
  intros e1 e2 w1 w2.
  apply (ExportPipeline_twice (H := Sample.plain) e1 e2 context.TODO
           context.TODO Sample.fresh w1 w2 0%nat 1%nat).
  - vm_compute. reflexivity.
  - vm_compute. reflexivity.
Defined.

(** X11.  The error of a failed pipeline reads as the error of the adapter's
    constructor under a prefix of the pipeline: [could not create exporter: ]
    for the local stream, [creating OTLP trace exporter: ] for the remote
    collector. *)
Theorem ExportPipeline_error_message `{SDK} (e : Exporter)
    (ctx : context.Context) (w w' : World) (err : error) :
  ExportPipeline e ctx w = ((None, Some err), w') ->
  exists cause,
    construction_error e ctx = Some cause /\
    Error err =
      (match e with
       | Exporter_io _ => "could not create exporter: "
       | Exporter_grpc _ => "creating OTLP trace exporter: "
       end ++ Error cause)%string.
Proof.
  destruct e as [c | g]; simpl.
  - unfold ioOutput_ExportPipeline, stdouttrace.New, stdouttrace.newConfig.
    simpl. destruct (stdouttrace.check _) as [cause |]; simpl.
    + intros [= <- _]. eexists. split; reflexivity.
    + destruct (Config_resource _ _) as [r re]. discriminate.
  - unfold grpcOutput_ExportPipeline, otlptrace.New.
    destruct (otlptrace.Start _ _) as [cause |]; simpl.
    + intros [= <- _]. eexists. split; reflexivity.
    + destruct (Config_resource _ _) as [r re]. discriminate.
Qed.

Lemma ExportPipeline_error_message_witness :
  exists cause,
    construction_error (H := Sample.failing)
      (Exporter_io {| io_Config := NewENVConfig Sample.env |})
      context.TODO = Some cause /\
    "could not create exporter: nil writer" =
      ("could not create exporter: " ++ Error cause)%string.
Proof.
  apply (ExportPipeline_error_message (H := Sample.failing)
           (Exporter_io {| io_Config := NewENVConfig Sample.env |})
           context.TODO Sample.fresh Sample.fresh
           (fmt.Errorf_w "could not create exporter: "
              (errorString "nil writer"))).
  vm_compute. reflexivity.
Defined.



(** ** From the environment to the collector *)

(** X13.  The remote pipeline of a configuration read from the environment
    dials what the environment names: when the client starts, the provider
    returned feeds an exporter whose client has the value of [OTEL_GRPC_URL]
    as endpoint and the value of [OTEL_GRPC_API_KEY] in its only header,
    [api-key]; an absent variable gives the empty endpoint, or the header
    with the empty value. *)
Theorem grpc_pipeline_of_environment `{SDK} (env : gmap string string)
    (ctx : context.Context) (w : World) (e : Exporter) :
  NewExporter GRPC (NewENVConfig env) = Some e ->
  construction_error e ctx = None ->
  exists p w' tp bsp exp,
    ExportPipeline e ctx w = ((Some p, None), w') /\
    heap w' !! p = Some tp /\
    last (trace.spanProcessors tp) = Some bsp /\
    trace.e bsp = Some (trace.OTLPExporter exp) /\
    otlptracegrpc.Endpoint (otlptracegrpc.cfg (otlptrace.client exp)) =
      default "" (env !! "OTEL_GRPC_URL") /\
    otlptracegrpc.Headers (otlptracegrpc.cfg (otlptrace.client exp)) =
      {[ "api-key" := default "" (env !! "OTEL_GRPC_API_KEY") ]}.
Proof.
  intros [= <-]. simpl.
  unfold grpcOutput_ExportPipeline, otlptrace.New.
  destruct (otlptrace.Start _ _) as [cause |]; simpl; [discriminate |].
  intros _. destruct (Config_resource _ _) as [r re].
  exists (List.length (heap w)). do 4 eexists.
  split; [reflexivity |]. simpl.
  split; [apply list_lookup_middle; reflexivity |].
  split; [apply last_snoc |].
  repeat split.
Qed.

Lemma grpc_pipeline_of_environment_witness :
  exists p w' tp bsp exp,
    ExportPipeline (H := Sample.plain)
      (Exporter_grpc {| grpc_Config := NewENVConfig ∅ |}) context.TODO
      Sample.fresh = ((Some p, None), w') /\
    heap w' !! p = Some tp /\
    last (trace.spanProcessors tp) = Some bsp /\
    trace.e bsp = Some (trace.OTLPExporter exp) /\
    otlptracegrpc.Endpoint (otlptracegrpc.cfg (otlptrace.client exp)) = "" /\
    otlptracegrpc.Headers (otlptracegrpc.cfg (otlptrace.client exp)) =
      {[ "api-key" := "" ]}.
Proof.
  exact (grpc_pipeline_of_environment (H := Sample.plain) ∅ context.TODO
           Sample.fresh (Exporter_grpc {| grpc_Config := NewENVConfig ∅ |})
           eq_refl eq_refl).
Defined.
